(** * Prem App dashboard: readiness and accessibility evaluation

    A shallow embedding of the decision logic of two React components,

    - [SystemCheck] (src/modules/onboarding/components/SystemCheck.tsx), the
      onboarding screen with its three dependency rows and the "Next" button;
    - [ServiceCard], the card of one service: redirect target, click
      interception, interface resolution and the refresh callback.

    A component is a function from its props, the values its hooks return and
    (for [ServiceCard]) the hook state of the mounted instance to the props it
    hands to its children.  Markup that carries no decision (layout classes,
    images, static text, tooltips) is left out. *)

From stdpp Require Import strings list pretty.

Open Scope Z_scope.

(** * JavaScript operators the components rely on *)

Module Js.

(** [number]: the components only format and test integer-valued numbers,
    so a number is a [Z]; [NaN] and fractions are outside this model.  A [Z]
    stands for the JavaScript number of the same value only when it is a
    safe integer ([isSafeInteger] below); statements about arbitrary limits
    carry that condition. *)
Definition number := Z.

(** [Number.isSafeInteger]: the integers between -(2^53 - 1) and 2^53 - 1,
    each of which is exactly one double. *)
Definition isSafeInteger (n : number) : bool :=
  (- (2 ^ 53 - 1) <=? n) && (n <=? 2 ^ 53 - 1).

(** ToBoolean on a number: [0] is falsy, every other integer is truthy. *)
Definition number_truthy (n : number) : bool := negb (n =? 0).

(** ToBoolean on a possibly-undefined number. *)
Definition truthy (v : option number) : bool :=
  match v with
  | None => false
  | Some n => number_truthy n
  end.

(** ToString inside a template literal, [`${v}`].  For a safe integer this
    is its decimal numeral, which is what [pretty] prints; from 1e21 on
    JavaScript switches to exponent notation, which [pretty] does not. *)
Definition to_string (v : option number) : string :=
  match v with
  | None => "undefined"
  | Some n => pretty n
  end.

(** Optional chaining [a?.f]. *)
Definition chain {A B} (a : option A) (f : A -> option B) : option B :=
  match a with
  | None => None
  | Some x => f x
  end.

(** Nullish coalescing [a ?? d]. *)
Definition coalesce {A} (a : option A) (d : A) : A :=
  match a with
  | None => d
  | Some x => x
  end.

(** [Array.prototype.includes] on an array of strings. *)
Fixpoint includes (xs : list string) (x : string) : bool :=
  match xs with
  | [] => false
  | y :: ys => if String.eqb y x then true else includes ys x
  end.

(** [Array.prototype.filter] with a predicate that may answer [undefined]
    (a falsy answer drops the element). *)
Fixpoint filter {A} (p : A -> option bool) (xs : list A) : list A :=
  match xs with
  | [] => []
  | x :: rest =>
      match p x with
      | Some true => x :: filter p rest
      | _ => filter p rest
      end
  end.

End Js.

(** * Onboarding: SystemCheck *)

Module Onboarding.

(** What [useSystemStats] yields: a query result whose payload is an HTTP
    response carrying [{ memory_limit?: number }]. *)
Record SystemStats := { memory_limit : option Js.number }.
Record StatsResponse := { data : option SystemStats }.
Record StatsQuery := { response : option StatsResponse; isLoading : bool }.

(** The props that carry data; [back], [next] and
    [handleCheckIsDockerRunning] are callbacks of the parent and appear in
    the view as the action a button triggers. *)
Record SystemCheckProps := {
  isDockerRunning : bool;
  isServerRunning : bool
}.

Inductive Action := Back | Next | HandleCheckIsDockerRunning.

(** Props of one [<Dependency>] row. *)
Record DependencyProps := {
  dep_isLoading : option bool;
  dep_isRunning : bool;
  dep_status : string;
  dep_name : string;
  dep_id : string
}.

Record ButtonProps := { disabled : bool; onClick : Action }.

Record SystemCheckView := {
  backButton : Action;
  dockerRow : DependencyProps;
  daemonRow : DependencyProps;
  memoryRow : DependencyProps;
  memoryTooltip : string;
  checkAgainButton : Action;
  nextButton : ButtonProps
}.

(** [response?.data?.memory_limit] *)
Definition memory_limit_of (q : StatsQuery) : option Js.number :=
  Js.chain (Js.chain (response q) data) memory_limit.

(** [const memoryLimit =
      response?.data?.memory_limit ? `${response?.data?.memory_limit}GiB` : ""] *)
Definition memoryLimit (q : StatsQuery) : string :=
  if Js.truthy (memory_limit_of q)
  then Js.to_string (memory_limit_of q) +:+ "GiB"
  else "".

Definition SystemCheck (props : SystemCheckProps) (q : StatsQuery)
  : SystemCheckView :=
  {| backButton := Back;
     dockerRow :=
       {| dep_isLoading := None;
          dep_isRunning := isDockerRunning props;
          dep_status := if isDockerRunning props then "Found" else "Not Found";
          dep_name := "Docker";
          dep_id := "docker" |};
     daemonRow :=
       {| dep_isLoading := None;
          dep_isRunning := isServerRunning props;
          dep_status :=
            if isServerRunning props then "Running" else "Not Running";
          dep_name := "Daemon";
          dep_id := "daemon" |};
     memoryRow :=
       {| dep_isLoading := Some (isLoading q);
          dep_isRunning := false;
          dep_status := memoryLimit q;
          dep_name := "Memory";
          dep_id := "memory" |};
     memoryTooltip := memoryLimit q;
     checkAgainButton := HandleCheckIsDockerRunning;
     nextButton :=
       {| disabled := negb (isDockerRunning props && isServerRunning props);
          onClick := Next |} |}.

(** The progression control is enabled when its button is not disabled. *)
Definition progression_enabled (v : SystemCheckView) : bool :=
  negb (disabled (nextButton v)).

(** The memory limit of [q], when there is one, is a safe integer. *)
Definition safe_limit (q : StatsQuery) : bool :=
  match memory_limit_of q with
  | None => true
  | Some n => Js.isSafeInteger n
  end.

(** A query result whose payload is loaded and carries [limit]. *)
Definition stats_of (limit : option Js.number) (loading : bool) : StatsQuery :=
  {| response := Some {| data := Some {| memory_limit := limit |} |};
     isLoading := loading |}.

(** A query result that has not delivered anything yet. *)
Definition stats_pending : StatsQuery :=
  {| response := None; isLoading := true |}.

End Onboarding.

(** * The query client: requests a component issues *)

Module QueryClient.

Definition QueryKey := list string.

(** A request handed to the shared client.  Both methods return a promise
    at once; the components drop it, so a request is all that is left of
    the call. *)
Inductive Request :=
| RefetchQueries (queryKey : QueryKey)
| InvalidateQueries (queryKey : QueryKey).

(** Code that talks to the client: the requests issued so far are threaded
    through, oldest first. *)
Definition Client (A : Type) : Type := list Request -> A * list Request.

Definition ret {A} (a : A) : Client A := fun issued => (a, issued).

Definition bind {A B} (c : Client A) (k : A -> Client B) : Client B :=
  fun issued => let '(a, issued') := c issued in k a issued'.

Definition refetchQueries (queryKey : QueryKey) : Client unit :=
  fun issued => (tt, issued ++ [RefetchQueries queryKey]).

Definition invalidateQueries (queryKey : QueryKey) : Client unit :=
  fun issued => (tt, issued ++ [InvalidateQueries queryKey]).

(** [n] calls of [c] in a row. *)
Fixpoint repeatedly (n : nat) (c : Client unit) : Client unit :=
  match n with
  | O => ret tt
  | S m => bind c (fun _ => repeatedly m c)
  end.

(** The requests [c] leaves behind when started from [issued]. *)
Definition requests_after {A} (c : Client A) (issued : list Request)
  : list Request :=
  snd (c issued).

End QueryClient.

Notation "c1 ;> c2" := (QueryClient.bind c1 (fun _ => c2))
  (at level 100, c2 at level 200, right associativity).

(** * Helpers of the service card that live outside the component *)

Module Utils.

(** A status is one of a closed set of string literals; the component
    compares it with [===]. *)
Definition Status := string.

Definition coming_soon : Status := "coming_soon".

End Utils.

Module WarningModal.

(** The click event as far as the card is concerned. *)
Record ClickEvent := { defaultPrevented : bool }.

Definition fresh_click : ClickEvent := {| defaultPrevented := false |}.

(** Modelled from the spec: the hook [useWarningModal] is not part of the
    sources at hand.  Its state is a simple open/closed flag with explicit
    open and close operations; opening from a click intercepts that click
    (the default navigation is suppressed) and opens the warning. *)
Definition openWarningModal (e : ClickEvent) (isOpen : bool)
  : ClickEvent * bool :=
  ({| defaultPrevented := true |}, true).

Definition closeWarningModal (isOpen : bool) : bool := false.

End WarningModal.

(** * The service card *)

Module Services.

Import QueryClient WarningModal.

(** [clsx(className, { "disabled--card": flag })]: the class names that end
    up on the element, in order; an absent or empty [className] adds none. *)
Definition clsx (className : option string) (disabledCard : bool)
  : list string :=
  match className with
  | Some c => if String.eqb c "" then [] else [c]
  | None => []
  end ++ (if disabledCard then ["disabled--card"] else []).

(** [useCallback(fn, [])]: the first render stores the function it is
    given; every later render of the same instance gets the stored one
    back, since an empty dependency list never changes. *)
Definition useCallback {F} (fn : F) (memo : option F) : F * option F :=
  match memo with
  | Some stored => (stored, memo)
  | None => (fn, Some fn)
  end.

(** The function [() => { ... }] of lines 26-30 as a closure: the code is
    fixed, the environment is the [serviceId] of the render that created
    it ([queryClient] is the one shared client). *)
Record RefetchCallback := { captured_serviceId : string }.

(** State that React keeps for one mounted card between renders. *)
Record Hooks := {
  isWarningModalOpen : bool;
  refetch_memo : option RefetchCallback
}.

Definition mount_hooks : Hooks :=
  {| isWarningModalOpen := false; refetch_memo := None |}.

Definition ClickHandler : Type := ClickEvent -> Hooks -> ClickEvent * Hooks.

Record ModelInfo := { memoryRequirements : option Js.number }.

Section ServiceCard.

(** Declarations the component imports that are not among the sources:
    the element type of the interfaces collection with its [id], the
    fields of a service that only [getServiceStatus] reads, the two
    query keys, and the two helpers of shared/helpers/utils. *)
Context {Interface : Type} (interface_id : Interface -> string).
Context {ServiceState : Type}.
Variables SERVICES_KEY SERVICE_KEY : string.

Record Service := {
  id : string;
  name : string;
  icon : string;
  serviceType : option string;
  interfaces : option (list string);
  needsUpdate : bool;
  modelInfo : option ModelInfo;
  beta : bool;
  petals : bool;
  state : ServiceState
}.

Variable getServiceStatus : Service -> Utils.Status.
Variable checkIfAccessible : Utils.Status -> bool.

Record ServiceCardProps := {
  className : option string;
  service : Service
}.

(** Props handed to [<Link>]. *)
Record LinkProps := {
  link_className : list string;
  link_onClick : ClickHandler;
  link_to : string
}.

(** Props handed to [<ServiceActions>]. *)
Record ServiceActionsProps := {
  sa_refetch : RefetchCallback;
  sa_service : Service;
  sa_status : Utils.Status;
  sa_interfaces : list Interface;
  sa_needsUpdate : bool;
  sa_memoryRequirements : option Js.number;
  sa_closeWarningModal : Hooks -> Hooks;
  sa_isWarningModalOpen : bool
}.

Record ServiceCardView := {
  link : LinkProps;
  logo_src : string;
  logo_alt : string;
  actions : ServiceActionsProps;
  heading : string;
  shows_beta : bool;
  shows_petals : bool
}.

(** Running the refresh callback: lines 27 and 28, in that order. *)
Definition refetch (callback : RefetchCallback) : Client unit :=
  refetchQueries [SERVICES_KEY] ;>
  invalidateQueries [SERVICE_KEY; captured_serviceId callback].

(** [useWarningModal()] seen from the instance's hook state. *)
Definition openWarningModal_hook : ClickHandler :=
  fun e hooks =>
    let '(e', isOpen) := openWarningModal e (isWarningModalOpen hooks) in
    (e', {| isWarningModalOpen := isOpen;
            refetch_memo := refetch_memo hooks |}).

Definition closeWarningModal_hook (hooks : Hooks) : Hooks :=
  {| isWarningModalOpen := closeWarningModal (isWarningModalOpen hooks);
     refetch_memo := refetch_memo hooks |}.

(** [interfaces?.filter((app) => service.interfaces?.includes(app.id)) ?? []] *)
Definition resolve_interfaces (s : Service)
    (useInterfaces_data : option (list Interface)) : list Interface :=
  Js.coalesce
    (Js.chain useInterfaces_data
       (fun all =>
          Some (Js.filter
                  (fun app =>
                     Js.chain (interfaces s)
                       (fun ids => Some (Js.includes ids (interface_id app))))
                  all)))
    [].

(** One render of the component. *)
Definition ServiceCard (props : ServiceCardProps)
    (useInterfaces_data : option (list Interface)) (hooks : Hooks)
  : ServiceCardView * Hooks :=
  let serviceId := id (service props) in
  let status := getServiceStatus (service props) in
  let title := name (service props) in
  let '(refetch_cb, memo) :=
    useCallback {| captured_serviceId := serviceId |} (refetch_memo hooks) in
  let isAccessible := checkIfAccessible status in
  let redirectLink :=
    if String.eqb status "coming_soon"
    then "/"
    else "/services/" +:+ serviceId +:+ "/"
         +:+ Js.coalesce (serviceType (service props)) "docker"
         +:+ "/detail" in
  ({| link :=
        {| link_className := clsx (className props) (negb isAccessible);
           link_onClick :=
             fun e h =>
               if negb isAccessible then openWarningModal_hook e h
               else (e, h);
           link_to := redirectLink |};
      logo_src := icon (service props);
      logo_alt := title;
      actions :=
        {| sa_refetch := refetch_cb;
           sa_service := service props;
           sa_status := status;
           sa_interfaces :=
             resolve_interfaces (service props) useInterfaces_data;
           sa_needsUpdate := needsUpdate (service props);
           sa_memoryRequirements :=
             Js.chain (modelInfo (service props)) memoryRequirements;
           sa_closeWarningModal := closeWarningModal_hook;
           sa_isWarningModalOpen := isWarningModalOpen hooks |};
      heading := title;
      shows_beta := beta (service props);
      shows_petals := petals (service props) |},
   {| isWarningModalOpen := isWarningModalOpen hooks;
      refetch_memo := memo |}).

(** What the router's [<Link>] does with a click: the card's handler
    runs first, and the client-side navigation to [to] follows unless the
    handler prevented the default. *)
Record ClickOutcome := {
  navigated_to : option string;
  event_after : ClickEvent;
  hooks_after : Hooks
}.

Definition click_link (l : LinkProps) (e : ClickEvent) (hooks : Hooks)
  : ClickOutcome :=
  let '(e', hooks') := link_onClick l e hooks in
  {| navigated_to := if defaultPrevented e' then None else Some (link_to l);
     event_after := e';
     hooks_after := hooks' |}.

(** The input of one render: the props and what [useInterfaces] holds. *)
Record RenderInput := {
  props : ServiceCardProps;
  useInterfaces_data : option (list Interface)
}.

(** A mounted instance rendered with [r] and then, in order, with each
    element of [later]; the result is the last render's. *)
Fixpoint rerender (hooks : Hooks) (r : RenderInput) (later : list RenderInput)
  : ServiceCardView * Hooks :=
  match later with
  | [] => ServiceCard (props r) (useInterfaces_data r) hooks
  | next :: rest =>
      rerender (snd (ServiceCard (props r) (useInterfaces_data r) hooks))
               next rest
  end.

Definition card_after (first : RenderInput) (later : list RenderInput)
  : ServiceCardView * Hooks :=
  rerender mount_hooks first later.

(** The service the card shows after the renders [first :: later]. *)
Definition current_service (first : RenderInput) (later : list RenderInput)
  : Service :=
  service (props (default first (last later))).

End ServiceCard.

End Services.

(** * Statements under test *)

Module Claims.

Import QueryClient Services.

(** The refresh callback of the card rendered with [first :: later], read
    as addressing the service the card shows now: run once, it adds a
    refetch of the services collection and an invalidation of the entry of
    the current service. *)
Definition refresh_addresses_current_service
    {Interface ServiceState : Type} (interface_id : Interface -> string)
    (SERVICES_KEY SERVICE_KEY : string)
    (getServiceStatus : @Service ServiceState -> Utils.Status)
    (checkIfAccessible : Utils.Status -> bool)
    (first : RenderInput) (later : list RenderInput) : Prop :=
  forall issued,
    requests_after
      (refetch SERVICES_KEY SERVICE_KEY
         (sa_refetch
            (actions
               (fst (card_after interface_id getServiceStatus
                       checkIfAccessible first later)))))
      issued
    = issued ++ [RefetchQueries [SERVICES_KEY];
                 InvalidateQueries
                   [SERVICE_KEY; id (current_service first later)]].

(** The subset of [all] whose id is among [ids], in the order of [all]. *)
Definition declared_subset {Interface : Type}
    (interface_id : Interface -> string) (ids : list string)
    (all : list Interface) : list Interface :=
  base.filter (fun app => interface_id app ∈ ids) all.

(** A service record for examples. *)
Definition example_service (i : string) (ty : option string)
    (ifs : option (list string)) : @Service unit :=
  {| id := i; name := i; icon := ""; serviceType := ty; interfaces := ifs;
     needsUpdate := false; modelInfo := None; beta := false;
     petals := false; state := tt |}.

Definition example_render (i : string) : @RenderInput string unit :=
  {| props := {| className := None;
                 service := example_service i None None |};
     useInterfaces_data := None |}.

(** Values for the two query keys and a status helper, used only to run
    the card on concrete services. *)
Definition example_services_key : string := "getServices".
Definition example_service_key : string := "getService".

Definition example_status (s : @Service unit) : Utils.Status :=
  if String.eqb (id s) "soon" then "coming_soon" else "running".

(** A gate for these runs: only a running service may be entered.  It
    stands in for [checkIfAccessible], whose body is not among the
    sources. *)
Definition example_gate (status : Utils.Status) : bool :=
  String.eqb status "running".

Definition example_card (s : @Service unit) (data : option (list string))
  : ServiceCardView :=
  fst (ServiceCard (fun app : string => app) example_status
         example_gate
         {| className := Some "card"; service := s |} data mount_hooks).

(** A card first rendered with service "svc-a", then with "svc-b". *)
Definition example_rerendered_card : ServiceCardView :=
  fst (card_after (fun app : string => app) example_status
         example_gate
         (example_render "svc-a") [example_render "svc-b"]).

End Claims.

(** * Properties of the onboarding screen *)

Section OnboardingProperties.

Import Onboarding.

Lemma to_string_GiB_nonempty v : Js.to_string v +:+ "GiB" <> "".
Proof.
  destruct (Js.to_string v); discriminate.
Qed.

Lemma memoryLimit_truthy q :
  Js.truthy (memory_limit_of q) = true ->
  memoryLimit q = Js.to_string (memory_limit_of q) +:+ "GiB".
Proof. unfold memoryLimit. now intros ->. Qed.

Lemma memoryLimit_falsy q :
  Js.truthy (memory_limit_of q) = false -> memoryLimit q = "".
Proof. unfold memoryLimit. now intros ->. Qed.

(** C1: the "Next" button is enabled exactly when both [isDockerRunning]
    and [isServerRunning] are true; in each of the three other combinations
    it is disabled. *)
Theorem next_enabled_iff_docker_and_server props q :
  (progression_enabled (SystemCheck props q) = true
   <-> isDockerRunning props = true /\ isServerRunning props = true)
  /\ (disabled (nextButton (SystemCheck props q)) = true
      <-> isDockerRunning props = false \/ isServerRunning props = false).
Proof.
  unfold progression_enabled. cbn.
  destruct (isDockerRunning props), (isServerRunning props); cbn;
    intuition congruence.
Qed.

(** C7: two renders that agree on [isDockerRunning] and [isServerRunning]
    give the "Next" button the same [disabled] value, whatever the memory
    probe holds (payload and loading flag) in either of them. *)
Theorem next_disabled_independent_of_memory props1 props2 q1 q2 :
  isDockerRunning props1 = isDockerRunning props2 ->
  isServerRunning props1 = isServerRunning props2 ->
  disabled (nextButton (SystemCheck props1 q1))
  = disabled (nextButton (SystemCheck props2 q2)).
Proof. cbn. now intros -> ->. Qed.

Lemma next_disabled_independent_of_memory_witness :
  disabled (nextButton
              (SystemCheck
                 {| isDockerRunning := true; isServerRunning := true |}
                 (stats_of (Some 8) false)))
  = disabled (nextButton
                (SystemCheck
                   {| isDockerRunning := true; isServerRunning := true |}
                   stats_pending)).
Proof.
  apply (next_disabled_independent_of_memory
           {| isDockerRunning := true; isServerRunning := true |}
           {| isDockerRunning := true; isServerRunning := true |}
           (stats_of (Some 8) false) stats_pending); reflexivity.
Defined.

(** C8: a memory limit of 8 is displayed as "8GiB"; an undefined memory
    limit (the field, the payload or the whole response missing) is
    displayed as the empty string. *)
Theorem memoryLimit_display loading :
  memoryLimit (stats_of (Some 8) loading) = "8GiB"
  /\ memoryLimit (stats_of None loading) = ""
  /\ memoryLimit {| response := Some {| data := None |};
                    isLoading := loading |} = ""
  /\ memoryLimit {| response := None; isLoading := loading |} = "".
Proof. repeat split; reflexivity. Qed.

(** C9: a memory limit of 0 is displayed as the empty string, not as
    "0GiB", exactly like an absent value: the display is empty if and only
    if the limit is falsy. *)
Theorem memoryLimit_zero_displays_empty loading :
  memoryLimit (stats_of (Some 0) loading) = ""
  /\ memoryLimit (stats_of (Some 0) loading) <> "0GiB"
  /\ memoryLimit (stats_of (Some 0) loading)
     = memoryLimit (stats_of None loading)
  /\ (forall q, memoryLimit q = "" <-> Js.truthy (memory_limit_of q) = false).
Proof.
  repeat split; try reflexivity; try discriminate.
  - intros H. destruct (Js.truthy (memory_limit_of q)) eqn:E; [|done].
    rewrite (memoryLimit_truthy q E) in H.
    now apply to_string_GiB_nonempty in H.
  - apply memoryLimit_falsy.
Qed.

(** C10: the Memory row is rendered with [isRunning = false] for every
    memory limit and loading flag, whereas the Docker and Daemon rows show
    their own flag. *)
Theorem memory_row_never_running props q :
  dep_isRunning (memoryRow (SystemCheck props q)) = false
  /\ dep_isRunning (dockerRow (SystemCheck props q)) = isDockerRunning props
  /\ dep_isRunning (daemonRow (SystemCheck props q)) = isServerRunning props.
Proof. repeat split. Qed.

End OnboardingProperties.

(** * Properties of the service card *)

Section ServiceCardProperties.

Import QueryClient WarningModal Services Claims.

Context {Interface : Type} (interface_id : Interface -> string).
Context {ServiceState : Type}.
Variables SERVICES_KEY SERVICE_KEY : string.
Variable getServiceStatus : @Service ServiceState -> Utils.Status.
Variable checkIfAccessible : Utils.Status -> bool.

Local Abbreviation render :=
  (ServiceCard interface_id getServiceStatus checkIfAccessible).
Local Abbreviation rendered :=
  (card_after interface_id getServiceStatus checkIfAccessible).
Local Abbreviation refresh := (refetch SERVICES_KEY SERVICE_KEY).

(** ** Redirect target *)

(** C2: the card links to "/" when the service's status is [coming_soon],
    and otherwise to /services/{id}/{serviceType}/detail, where a service
    without a service type counts as "docker". *)
Theorem redirect_target props data hooks :
  let s := service props in
  let target := link_to (link (fst (render props data hooks))) in
  (getServiceStatus s = Utils.coming_soon /\ target = "/")
  \/ (getServiceStatus s <> Utils.coming_soon
      /\ target = "/services/" +:+ id s +:+ "/"
                  +:+ default "docker" (serviceType s) +:+ "/detail").
Proof.
  cbn. unfold ServiceCard.
  destruct (useCallback _ _) as [cb memo]. cbn.
  destruct (String.eqb_spec (getServiceStatus (service props)) "coming_soon")
    as [E|E].
  - left. now split.
  - right. split; [exact E|].
    now destruct (serviceType (service props)).
Qed.

(** ** Click interception *)

(** C3: a click on the card of a service whose status the gate rejects is
    intercepted (default prevented, no navigation) and opens the warning;
    a click on the card of a service the gate accepts is left alone: the
    event and the warning flag are unchanged and the link navigates. *)
Theorem click_interception props data hooks0 hooks :
  let view := fst (render props data hooks0) in
  let outcome := click_link (link view) fresh_click hooks in
  (checkIfAccessible (getServiceStatus (service props)) = false
   /\ defaultPrevented (event_after outcome) = true
   /\ navigated_to outcome = None
   /\ isWarningModalOpen (hooks_after outcome) = true)
  \/ (checkIfAccessible (getServiceStatus (service props)) = true
      /\ event_after outcome = fresh_click
      /\ navigated_to outcome = Some (link_to (link view))
      /\ hooks_after outcome = hooks).
Proof.
  cbn. unfold ServiceCard.
  destruct (useCallback _ _) as [cb memo]. cbn.
  unfold click_link. cbn.
  destruct (checkIfAccessible (getServiceStatus (service props))); cbn.
  - right. repeat split.
  - left. repeat split.
Qed.

(** ** Interface resolution *)

Lemma includes_elem_of ids x : Js.includes ids x = true <-> x ∈ ids.
Proof.
  induction ids as [|y ids IH]; cbn.
  - split; [discriminate|]. intros H. inversion H.
  - destruct (String.eqb_spec y x) as [->|Hne].
    + split; [intros _; left | reflexivity].
    + rewrite IH. split.
      * now right.
      * intros H. inversion H; subst; [congruence | assumption].
Qed.

Lemma filter_includes ids all :
  Js.filter (fun app => Some (Js.includes ids (interface_id app))) all
  = declared_subset interface_id ids all.
Proof.
  unfold declared_subset.
  induction all as [|app all IH]; [reflexivity|].
  cbn [Js.filter]. rewrite filter_cons, IH.
  destruct (Js.includes ids (interface_id app)) eqn:E.
  - apply includes_elem_of in E. now rewrite decide_True.
  - rewrite decide_False; [reflexivity|].
    intros Hin. apply includes_elem_of in Hin. congruence.
Qed.

Lemma filter_undefined (all : list Interface) :
  Js.filter (fun _ => None) all = [].
Proof. induction all; [reflexivity | assumption]. Qed.

Lemma resolve_interfaces_cases (s : @Service ServiceState) data :
  resolve_interfaces interface_id s data
  = match data, interfaces s with
    | Some all, Some ids => declared_subset interface_id ids all
    | _, _ => []
    end.
Proof.
  unfold resolve_interfaces.
  destruct data as [all|], (interfaces s) as [ids|]; cbn;
    auto using filter_includes, filter_undefined.
Qed.

(** C5: the interfaces handed on are exactly those elements of the full
    collection whose id is in the service's declared list, in the order of
    the full collection; without a declared list, or while the collection
    is undefined, they are the empty list. *)
Theorem resolved_interfaces props data hooks :
  let resolved := sa_interfaces (actions (fst (render props data hooks))) in
  resolved
  = match data, interfaces (service props) with
    | Some all, Some ids => declared_subset interface_id ids all
    | _, _ => []
    end
  /\ resolved `sublist_of` default [] data
  /\ (forall app,
         app ∈ resolved
         <-> exists all ids,
             data = Some all /\ interfaces (service props) = Some ids
             /\ app ∈ all /\ interface_id app ∈ ids).
Proof.
  assert (Hview : sa_interfaces (actions (fst (render props data hooks)))
                  = resolve_interfaces interface_id (service props) data).
  { unfold ServiceCard. now destruct (useCallback _ _). }
  cbv zeta. rewrite Hview, resolve_interfaces_cases.
  split; [reflexivity|].
  destruct data as [all|], (interfaces (service props)) as [ids|]; cbn.
  - split; [apply sublist_filter|].
    intros app. unfold declared_subset. rewrite list_elem_of_filter.
    split.
    + intros [Hid Hin]. exists all, ids. auto.
    + intros (all' & ids' & [= <-] & [= <-] & Hin & Hid). auto.
  - split; [apply sublist_nil_l|].
    intros app. split; [intros H; inversion H|].
    intros (? & ? & _ & [=] & _).
  - split; [constructor|].
    intros app. split; [intros H; inversion H|].
    intros (? & ? & [=] & _).
  - split; [constructor|].
    intros app. split; [intros H; inversion H|].
    intros (? & ? & [=] & _).
Qed.

(** ** Refresh *)

(** What one call of the refresh callback adds to the client. *)
Local Abbreviation refresh_requests serviceId :=
  [RefetchQueries [SERVICES_KEY];
   InvalidateQueries [SERVICE_KEY; serviceId]].

Lemma refresh_once callback issued :
  refresh callback issued
  = (tt, issued ++ refresh_requests (captured_serviceId callback)).
Proof.
  unfold refetch, bind, refetchQueries, invalidateQueries.
  now rewrite <- app_assoc.
Qed.

Lemma refresh_repeatedly n callback issued :
  repeatedly n (refresh callback) issued
  = (tt, issued
         ++ mjoin (replicate n
                     (refresh_requests (captured_serviceId callback)))).
Proof.
  revert issued. induction n as [|n IH]; intros issued.
  - cbn. unfold ret. now rewrite app_nil_r.
  - cbn [repeatedly replicate]. unfold bind at 1.
    rewrite refresh_once, IH. cbn [mjoin list_join].
    now rewrite <- app_assoc.
Qed.

(** The callback a render hands on, and the one it leaves in the memo. *)
Lemma render_callback props data hooks :
  let callback :=
    default {| captured_serviceId := id (service props) |}
            (refetch_memo hooks) in
  sa_refetch (actions (fst (render props data hooks))) = callback
  /\ refetch_memo (snd (render props data hooks)) = Some callback.
Proof.
  unfold ServiceCard, useCallback.
  now destruct (refetch_memo hooks).
Qed.

(** Once a callback is stored, every later render hands on that one. *)
Lemma rerender_keeps_callback callback later :
  forall hooks r,
    refetch_memo hooks = Some callback ->
    sa_refetch (actions
                  (fst (rerender interface_id getServiceStatus
                          checkIfAccessible hooks r later)))
    = callback.
Proof.
  induction later as [|next rest IH]; intros hooks r Hmemo; cbn [rerender].
  - destruct (render_callback (props r) (useInterfaces_data r) hooks)
      as [-> _].
    now rewrite Hmemo.
  - apply IH.
    destruct (render_callback (props r) (useInterfaces_data r) hooks)
      as [_ ->].
    now rewrite Hmemo.
Qed.

(** The callback of a card is the one its first render created. *)
Lemma rendered_callback first later :
  sa_refetch (actions (fst (rendered first later)))
  = {| captured_serviceId := id (service (props first)) |}.
Proof.
  unfold card_after. destruct later as [|next rest]; cbn [rerender].
  - now destruct (render_callback (props first) (useInterfaces_data first)
                    mount_hooks) as [-> _].
  - apply rerender_keeps_callback.
    now destruct (render_callback (props first) (useInterfaces_data first)
                    mount_hooks) as [_ ->].
Qed.

(** X11: each call of the refresh callback returns after issuing a
    refetch of the services collection and an invalidation of the
    single-service entry keyed by the id of the service the card was first
    rendered with; [n] calls in a row issue exactly [n] such pairs, one
    refetch and one invalidation per call, on top of what was issued
    before. *)
Theorem refresh_issues_refetch_and_invalidation first later n issued :
  let callback := sa_refetch (actions (fst (rendered first later))) in
  let mounted_id := id (service (props first)) in
  refresh callback issued
  = (tt, issued ++ [RefetchQueries [SERVICES_KEY];
                    InvalidateQueries [SERVICE_KEY; mounted_id]])
  /\ repeatedly n (refresh callback) issued
     = (tt, issued
            ++ mjoin (replicate n
                        [RefetchQueries [SERVICES_KEY];
                         InvalidateQueries [SERVICE_KEY; mounted_id]])).
Proof.
  cbv zeta. rewrite rendered_callback. split.
  - apply refresh_once.
  - apply refresh_repeatedly.
Qed.

(** X12: a card whose renders all carry the service id of its first
    render refreshes the service it shows: one call of the callback issues
    the refetch of the services collection and the invalidation of the
    entry keyed by the current service's id. *)
Lemma refresh_addresses_current_service_stable_id first later :
  Forall (fun r => id (service (props r)) = id (service (props first)))
         later ->
  refresh_addresses_current_service interface_id SERVICES_KEY SERVICE_KEY
    getServiceStatus checkIfAccessible first later.
Proof.
  intros Hsame issued. unfold requests_after.
  rewrite rendered_callback, refresh_once. cbn.
  unfold current_service.
  destruct (last later) as [r|] eqn:Hlast; cbn; [|reflexivity].
  apply last_Some_elem_of in Hlast.
  rewrite Forall_forall in Hsame. now rewrite (Hsame r Hlast).
Qed.

End ServiceCardProperties.

(** * Concrete runs *)

Section Examples.

Import QueryClient WarningModal Services Claims.

Example resolved_interfaces_svc1 :
  sa_interfaces
    (actions (example_card (example_service "svc1" None (Some ["a"; "c"]))
                   (Some ["a"; "b"; "c"])))
  = ["a"; "c"].
Proof. reflexivity. Qed.

Example resolved_interfaces_undeclared :
  sa_interfaces
    (actions (example_card (example_service "svc1" None None) (Some ["a"; "b"])))
  = [].
Proof. reflexivity. Qed.

Example redirect_docker_default :
  link_to (link (example_card (example_service "svc1" None None) None))
  = "/services/svc1/docker/detail".
Proof. reflexivity. Qed.

Example redirect_declared_type :
  link_to (link (example_card (example_service "svc1" (Some "binary") None) None))
  = "/services/svc1/binary/detail".
Proof. reflexivity. Qed.

Example redirect_coming_soon :
  link_to (link (example_card (example_service "soon" None None) None)) = "/".
Proof. reflexivity. Qed.

Example click_coming_soon :
  click_link (link (example_card (example_service "soon" None None) None))
             fresh_click mount_hooks
  = {| navigated_to := None;
       event_after := {| defaultPrevented := true |};
       hooks_after := {| isWarningModalOpen := true;
                         refetch_memo := None |} |}.
Proof. reflexivity. Qed.

Example class_names_coming_soon :
  link_className (link (example_card (example_service "soon" None None) None))
  = ["card"; "disabled--card"].
Proof. reflexivity. Qed.

(** C6: the failing run.  A card first rendered with service "svc-a" and
    rendered again with service "svc-b" shows "svc-b", yet its refresh
    callback invalidates the entry of "svc-a", not the entry of the service
    it shows: the memoised callback of the first render is the one handed
    on. *)
Lemma refresh_after_service_change :
  id (sa_service (actions example_rerendered_card)) = "svc-b"
  /\ requests_after
       (refetch example_services_key example_service_key
          (sa_refetch (actions example_rerendered_card))) []
     = [RefetchQueries ["getServices"];
        InvalidateQueries ["getService"; "svc-a"]]
  /\ ~ refresh_addresses_current_service (fun app : string => app)
         example_services_key example_service_key example_status
         example_gate
         (example_render "svc-a") [example_render "svc-b"].
Proof.
  split; [reflexivity|]. split; [reflexivity|].
  intros H. specialize (H []). vm_compute in H. discriminate H.
Qed.

(** The same card rendered twice with "svc-a". *)
Lemma refresh_addresses_current_service_stable_id_witness :
  refresh_addresses_current_service (fun app : string => app)
    example_services_key example_service_key example_status example_gate
    (example_render "svc-a") [example_render "svc-a"].
Proof.
  apply (refresh_addresses_current_service_stable_id
           (fun app : string => app) example_services_key
           example_service_key example_status example_gate
           (example_render "svc-a") [example_render "svc-a"]).
  repeat constructor.
Defined.

End Examples.

(** * Further properties of the onboarding screen *)

Section OnboardingRows.

Import Onboarding.

(** Appending a fixed suffix to two strings keeps them apart. *)
Lemma string_app_length (s t : string) :
  String.length (s +:+ t) = (String.length s + String.length t)%nat.
Proof. induction s as [|c s IH]; simpl; [reflexivity | now f_equal]. Qed.

Lemma string_app_inv_tail (t s1 s2 : string) :
  s1 +:+ t = s2 +:+ t -> s1 = s2.
Proof.
  revert s2. induction s1 as [|c1 s1 IH]; intros [|c2 s2] H; simpl in H.
  - reflexivity.
  - apply (f_equal String.length) in H.
    rewrite !string_app_length in H. simpl in H. lia.
  - apply (f_equal String.length) in H.
    rewrite !string_app_length in H. simpl in H. lia.
  - injection H as -> H. f_equal. now apply IH.
Qed.

(** X1: the "Next" button is enabled exactly when the Docker row reads
    "Found" and the Daemon row reads "Running"; each of the two rows shows
    its passing label exactly when it is marked as running. *)
Theorem next_enabled_iff_rows_pass props q :
  (progression_enabled (SystemCheck props q) = true
   <-> dep_status (dockerRow (SystemCheck props q)) = "Found"
       /\ dep_status (daemonRow (SystemCheck props q)) = "Running")
  /\ (dep_status (dockerRow (SystemCheck props q)) = "Found"
      <-> dep_isRunning (dockerRow (SystemCheck props q)) = true)
  /\ (dep_status (daemonRow (SystemCheck props q)) = "Running"
      <-> dep_isRunning (daemonRow (SystemCheck props q)) = true).
Proof.
  unfold progression_enabled. cbn.
  destruct (isDockerRunning props), (isServerRunning props); cbn;
    repeat split; intros; try tauto; try discriminate;
    match goal with H : _ /\ _ |- _ => destruct H; discriminate end.
Qed.

(** X2: for a memory limit that is missing or a safe integer, the memory
    text is either empty, when the limit is missing or 0, or the decimal
    numeral of the non-zero limit followed by "GiB"; the word "undefined"
    is never rendered. *)
Theorem memoryLimit_shape q :
  safe_limit q = true ->
  (memoryLimit q = ""
   /\ (memory_limit_of q = None \/ memory_limit_of q = Some 0))
  \/ (exists n : Z,
         n <> 0 /\ memory_limit_of q = Some n
         /\ memoryLimit q = pretty n +:+ "GiB").
Proof.
  intros _. unfold memoryLimit.
  destruct (memory_limit_of q) as [n|] eqn:E; cbn; [|left; auto].
  unfold Js.number_truthy. destruct (Z.eqb_spec n 0) as [->|Hn]; cbn.
  - left. auto.
  - right. exists n. auto.
Qed.

(** X3: two stats queries whose memory limits are missing or safe integers
    display the same memory text exactly when both limits are falsy
    (missing or 0) or the two limits are equal: distinct non-zero limits
    are never displayed alike. *)
Theorem memoryLimit_eq_iff q1 q2 :
  safe_limit q1 = true ->
  safe_limit q2 = true ->
  memoryLimit q1 = memoryLimit q2
  <-> (Js.truthy (memory_limit_of q1) = false
       /\ Js.truthy (memory_limit_of q2) = false)
      \/ memory_limit_of q1 = memory_limit_of q2.
Proof.
  intros _ _. unfold memoryLimit. split.
  - destruct (Js.truthy (memory_limit_of q1)) eqn:T1,
             (Js.truthy (memory_limit_of q2)) eqn:T2; intros H.
    + right.
      destruct (memory_limit_of q1) as [n1|]; [|discriminate T1].
      destruct (memory_limit_of q2) as [n2|]; [|discriminate T2].
      cbn in H. apply string_app_inv_tail in H.
      f_equal. now apply pretty_Z_inj.
    + now apply to_string_GiB_nonempty in H.
    + symmetry in H. now apply to_string_GiB_nonempty in H.
    + left. auto.
  - intros [[-> ->] | ->]; reflexivity.
Qed.

Lemma memoryLimit_shape_witness :
  (memoryLimit (stats_of (Some 8) false) = ""
   /\ (memory_limit_of (stats_of (Some 8) false) = None
       \/ memory_limit_of (stats_of (Some 8) false) = Some 0))
  \/ (exists n : Z,
         n <> 0 /\ memory_limit_of (stats_of (Some 8) false) = Some n
         /\ memoryLimit (stats_of (Some 8) false) = pretty n +:+ "GiB").
Proof.
  apply (memoryLimit_shape (stats_of (Some 8) false)). reflexivity.
Defined.

Lemma memoryLimit_eq_iff_witness :
  memoryLimit (stats_of (Some 8) false) = memoryLimit (stats_of (Some 16) true)
  <-> (Js.truthy (memory_limit_of (stats_of (Some 8) false)) = false
       /\ Js.truthy (memory_limit_of (stats_of (Some 16) true)) = false)
      \/ memory_limit_of (stats_of (Some 8) false)
         = memory_limit_of (stats_of (Some 16) true).
Proof.
  apply (memoryLimit_eq_iff (stats_of (Some 8) false)
           (stats_of (Some 16) true)); reflexivity.
Defined.

End OnboardingRows.

(** * Further properties of the service card *)

Section ServiceCardViews.

Import QueryClient WarningModal Services Claims.

Context {Interface : Type} (interface_id : Interface -> string).
Context {ServiceState : Type}.
Variable getServiceStatus : @Service ServiceState -> Utils.Status.
Variable checkIfAccessible : Utils.Status -> bool.

Local Abbreviation render :=
  (ServiceCard interface_id getServiceStatus checkIfAccessible).

(** ** Redirect target *)

Lemma render_target props data hooks :
  link_to (link (fst (render props data hooks)))
  = if String.eqb (getServiceStatus (service props)) "coming_soon"
    then "/"
    else "/services/" +:+ id (service props) +:+ "/"
         +:+ Js.coalesce (serviceType (service props)) "docker"
         +:+ "/detail".
Proof. unfold ServiceCard. now destruct (useCallback _ _). Qed.

(** X4: the card links to the home path "/" if and only if the service is
    [coming_soon]; a service of any other status never links to "/". *)
Theorem redirect_home_iff_coming_soon props data hooks :
  let view :=
    fst (ServiceCard interface_id getServiceStatus checkIfAccessible
           props data hooks) in
  link_to (link view) = "/"
  <-> getServiceStatus (service props) = Utils.coming_soon.
Proof.
  cbv zeta. rewrite render_target.
  destruct (String.eqb_spec (getServiceStatus (service props)) "coming_soon")
    as [E|E].
  - split; auto.
  - split; [|intros H; now destruct E].
    simpl. destruct (id (service props)); discriminate.
Qed.

(** X5: two services that are not [coming_soon] and have the same service
    type (a missing type counting as "docker") share a redirect target only
    if they have the same id. *)
Theorem redirect_target_determines_id props1 props2 data1 data2 hooks1 hooks2 :
  getServiceStatus (service props1) <> Utils.coming_soon ->
  getServiceStatus (service props2) <> Utils.coming_soon ->
  default "docker" (serviceType (service props1))
  = default "docker" (serviceType (service props2)) ->
  link_to (link (fst (ServiceCard interface_id getServiceStatus
                        checkIfAccessible props1 data1 hooks1)))
  = link_to (link (fst (ServiceCard interface_id getServiceStatus
                          checkIfAccessible props2 data2 hooks2))) ->
  id (service props1) = id (service props2).
Proof.
  intros H1 H2 Hty. rewrite !render_target.
  destruct (String.eqb_spec (getServiceStatus (service props1)) "coming_soon");
    [contradiction|].
  destruct (String.eqb_spec (getServiceStatus (service props2)) "coming_soon");
    [contradiction|].
  replace (Js.coalesce (serviceType (service props1)) "docker")
    with (default "docker" (serviceType (service props1)))
    by now destruct (serviceType (service props1)).
  replace (Js.coalesce (serviceType (service props2)) "docker")
    with (default "docker" (serviceType (service props2)))
    by now destruct (serviceType (service props2)).
  rewrite Hty. intros H.
  apply String.app_inj in H.
  now apply string_app_inv_tail in H.
Qed.

(** ** Interface resolution *)

Lemma render_shown props data hooks :
  sa_interfaces (actions (fst (render props data hooks)))
  = match data, interfaces (service props) with
    | Some all, Some ids => declared_subset interface_id ids all
    | _, _ => []
    end.
Proof.
  rewrite <- resolve_interfaces_cases.
  unfold ServiceCard. now destruct (useCallback _ _).
Qed.

(** X6: the interfaces shown depend on the declared ids only as a set: two
    services whose declared lists have the same members, in whatever order
    and with whatever repetitions, resolve to the same interfaces. *)
Theorem resolved_interfaces_same_members
    props1 props2 data hooks1 hooks2 ids1 ids2 :
  interfaces (service props1) = Some ids1 ->
  interfaces (service props2) = Some ids2 ->
  (forall i, i ∈ ids1 <-> i ∈ ids2) ->
  sa_interfaces
    (actions (fst (ServiceCard interface_id getServiceStatus
                     checkIfAccessible props1 data hooks1)))
  = sa_interfaces
      (actions (fst (ServiceCard interface_id getServiceStatus
                       checkIfAccessible props2 data hooks2))).
Proof.
  intros E1 E2 Hsame. rewrite !render_shown, E1, E2.
  destruct data as [all|]; [|reflexivity].
  unfold declared_subset. apply list_filter_iff. intros app. apply Hsame.
Qed.

(** X7: resolution works element by element: resolving a concatenated
    collection gives the concatenation of the two results, resolving an
    already resolved collection changes nothing, and the result is never
    longer than the collection. *)
Theorem resolved_interfaces_compose props all1 all2 data hooks :
  let shown collection :=
    sa_interfaces
      (actions (fst (ServiceCard interface_id getServiceStatus
                       checkIfAccessible props collection hooks))) in
  shown (Some (all1 ++ all2)) = shown (Some all1) ++ shown (Some all2)
  /\ shown (Some (shown data)) = shown data
  /\ (length (shown data) <= length (default [] data))%nat.
Proof.
  cbv beta zeta. rewrite !render_shown.
  destruct (interfaces (service props)) as [ids|].
  - split; [apply filter_app|]. split.
    + destruct data as [all|]; [|reflexivity].
      unfold declared_subset. now apply list_filter_filter_l.
    + destruct data as [all|]; cbn; [apply length_filter | lia].
  - split; [reflexivity|]. split.
    + now destruct data.
    + destruct data; cbn; lia.
Qed.

(** X8: the whole loaded collection is shown exactly when the service
    declares the id of every element of it, and nothing is shown exactly
    when it declares the id of none. *)
Theorem resolved_interfaces_all_or_none props all hooks :
  let shown :=
    sa_interfaces
      (actions (fst (ServiceCard interface_id getServiceStatus
                       checkIfAccessible props (Some all) hooks))) in
  let declares app :=
    exists ids, interfaces (service props) = Some ids
                /\ interface_id app ∈ ids in
  (shown = all <-> Forall declares all)
  /\ (shown = [] <-> Forall (fun app => ~ declares app) all).
Proof.
  cbv beta zeta. rewrite render_shown.
  destruct (interfaces (service props)) as [ids|]; unfold declared_subset.
  - split.
    + split.
      * intros H. rewrite <- H. apply Forall_forall. intros app Hin.
        apply list_elem_of_filter in Hin as [Hid _]. eauto.
      * intros H. induction all as [|app all IH]; [reflexivity|].
        inversion H as [|? ? (ids' & [= <-] & Hid) Hrest]; subst.
        rewrite filter_cons, decide_True by assumption.
        f_equal. now apply IH.
    + split.
      * intros H. apply Forall_forall.
        intros app Hin (ids' & [= <-] & Hid).
        now apply (filter_nil_not_elem_of _ _ app H).
      * intros H. induction all as [|app all IH]; [reflexivity|].
        inversion H as [|? ? Hno Hrest]; subst.
        rewrite filter_cons, decide_False; [now apply IH|].
        intros Hid. apply Hno. eauto.
  - split.
    + split.
      * intros <-. constructor.
      * intros H. destruct all as [|app all]; [reflexivity|].
        inversion H as [|? ? (ids' & [=] & _) _].
    + split; [|reflexivity].
      intros _. apply Forall_forall. intros app _ (ids' & [=] & _).
Qed.

End ServiceCardViews.

Section ServiceCardViewWitnesses.

Import Services Claims.

Lemma redirect_target_determines_id_witness :
  id (service {| className := None;
                 service := example_service "svc1" None None |})
  = id (service {| className := Some "card";
                   service := example_service "svc1" (Some "docker") None |}).
Proof.
  apply (redirect_target_determines_id (fun app : string => app)
           example_status example_gate
           {| className := None;
              service := example_service "svc1" None None |}
           {| className := Some "card";
              service := example_service "svc1" (Some "docker") None |}
           None (Some ["a"]) mount_hooks mount_hooks).
  - vm_compute. discriminate.
  - vm_compute. discriminate.
  - reflexivity.
  - reflexivity.
Defined.

Lemma resolved_interfaces_same_members_witness :
  sa_interfaces
    (actions
       (fst (ServiceCard (fun app : string => app) example_status
               example_gate
               {| className := None;
                  service := example_service "svc1" None (Some ["a"; "c"]) |}
               (Some ["a"; "b"; "c"]) mount_hooks)))
  = sa_interfaces
      (actions
         (fst (ServiceCard (fun app : string => app) example_status
                 example_gate
                 {| className := None;
                    service :=
                      example_service "svc2" None (Some ["c"; "a"; "c"]) |}
                 (Some ["a"; "b"; "c"]) mount_hooks))).
Proof.
  apply (resolved_interfaces_same_members (fun app : string => app)
           example_status example_gate
           {| className := None;
              service := example_service "svc1" None (Some ["a"; "c"]) |}
           {| className := None;
              service := example_service "svc2" None (Some ["c"; "a"; "c"]) |}
           (Some ["a"; "b"; "c"]) mount_hooks mount_hooks
           ["a"; "c"] ["c"; "a"; "c"]).
  - reflexivity.
  - reflexivity.
  - intros i. rewrite !elem_of_cons. rewrite !elem_of_nil. tauto.
Defined.

End ServiceCardViewWitnesses.

(** * The card across re-renders *)

Section ServiceCardRerenders.

Import QueryClient WarningModal Services Claims.

Context {Interface : Type} (interface_id : Interface -> string).
Context {ServiceState : Type}.
Variable getServiceStatus : @Service ServiceState -> Utils.Status.
Variable checkIfAccessible : Utils.Status -> bool.

Local Abbreviation render :=
  (ServiceCard interface_id getServiceStatus checkIfAccessible).



(** Apart from the refresh callback and the warning flag, a render does not
    look at the hook state. *)
Lemma render_ignores_hooks props data hooks1 hooks2 :
  let v1 := fst (render props data hooks1) in
  let v2 := fst (render props data hooks2) in
  link v1 = link v2
  /\ logo_src v1 = logo_src v2 /\ logo_alt v1 = logo_alt v2
  /\ heading v1 = heading v2
  /\ shows_beta v1 = shows_beta v2 /\ shows_petals v1 = shows_petals v2
  /\ sa_service (actions v1) = sa_service (actions v2)
  /\ sa_status (actions v1) = sa_status (actions v2)
  /\ sa_interfaces (actions v1) = sa_interfaces (actions v2)
  /\ sa_needsUpdate (actions v1) = sa_needsUpdate (actions v2)
  /\ sa_memoryRequirements (actions v1) = sa_memoryRequirements (actions v2).
Proof.
  unfold ServiceCard.
  destruct (useCallback _ (refetch_memo hooks1)),
           (useCallback _ (refetch_memo hooks2)).
  cbn. repeat split.
Qed.

(** The last of a run of renders is a render of the latest input. *)
Lemma rerender_is_last_render later :
  forall hooks r,
    exists hooks',
      fst (rerender interface_id getServiceStatus checkIfAccessible
                 hooks r later)
      = fst (render (props (default r (last later)))
                    (useInterfaces_data (default r (last later))) hooks').
Proof.
  induction later as [|next rest IH]; intros hooks r; cbn [rerender].
  - exists hooks. reflexivity.
  - destruct (IH (snd (render (props r) (useInterfaces_data r) hooks)) next)
      as [hooks' ->].
    exists hooks'. rewrite last_cons.
    now destruct (last rest).
Qed.

(** X10: whatever a card was rendered with before, its link (target, class
    names, click handler), logo, heading, badges and the service, status,
    interfaces, update flag and memory requirement it hands to the service
    actions are those of a freshly mounted card for the latest props and
    interfaces collection; only the refresh callback and the warning flag
    come from the past. *)
Theorem rerender_follows_latest_props first later :
  let latest := default first (last later) in
  let v := fst (card_after interface_id getServiceStatus checkIfAccessible
                  first later) in
  let fresh :=
    fst (render (props latest) (useInterfaces_data latest) mount_hooks) in
  link v = link fresh
  /\ logo_src v = logo_src fresh /\ logo_alt v = logo_alt fresh
  /\ heading v = heading fresh
  /\ shows_beta v = shows_beta fresh /\ shows_petals v = shows_petals fresh
  /\ sa_service (actions v) = service (props latest)
  /\ sa_status (actions v) = getServiceStatus (service (props latest))
  /\ sa_interfaces (actions v) = sa_interfaces (actions fresh)
  /\ sa_needsUpdate (actions v) = sa_needsUpdate (actions fresh)
  /\ sa_memoryRequirements (actions v)
     = sa_memoryRequirements (actions fresh).
Proof.
  cbv zeta. unfold card_after.
  destruct (rerender_is_last_render later mount_hooks first) as [hooks' ->].
  set (latest := default first (last later)).
  pose proof (render_ignores_hooks (props latest) (useInterfaces_data latest)
                hooks' mount_hooks) as H.
  cbv zeta in H.
  destruct H as (H1 & H2 & H3 & H4 & H5 & H6 & H7 & H8 & H9 & H10 & H11).
  repeat split; assumption.
Qed.

End ServiceCardRerenders.
